(** * go-virtualbox: the privileged command runner (vbcmd.go, import.go)

    A shallow embedding of the Go package [virtualbox]: the [command]
    struct, its one-shot [sudo] option, the three execution modes [run],
    [runOut] and [runOutErr], the permission probe [isSudoer] and the
    composed operation [ImportOVF].

    The Go standard library and the operating system are the environment:
    what a path lookup finds, what a child process writes and how it exits,
    what the user database answers.  They are gathered in a [World] record
    over which every definition is parameterised.  The package's own
    mutable state (the [Verbose] switch, the addressable [command]
    variables) and its observable side effects (log lines, spawned
    processes, text streamed to the console) live in a [State] threaded by
    a small state monad. *)

From Stdlib Require Import ZArith DecimalString DecimalZ DecimalPos.
From stdpp Require Import gmap strings list.

Local Open Scope string_scope.
Local Open Scope Z_scope.

(** ** Go values *)

(** Every [error] value met by this package is a pointer stored in an
    interface: a dynamic type (the constructor) and an address. *)
Definition ptr := positive.

Inductive error : Type :=
| errorString (p : ptr) (s : string)                   (* pointer to errors.errorString *)
| exec_Error (p : ptr) (Name : string) (Err : error)   (* pointer to exec.Error *)
| exec_ExitError (p : ptr) (code : Z) (Stderr : string) (* pointer to exec.ExitError *)
| os_error (p : ptr) (msg : string).                   (* any other dynamic type *)

Arguments errorString p%_positive s%_string.
Arguments exec_Error p%_positive Name%_string Err.
Arguments exec_ExitError p%_positive code%_Z Stderr%_string.
Arguments os_error p%_positive msg%_string.

(** [a == b] on interface values: identical dynamic types and equal dynamic
    values, which for pointers means the same address. *)
Definition iface_eqb (a b : error) : bool :=
  match a, b with
  | errorString p _, errorString q _ => Pos.eqb p q
  | exec_Error p _ _, exec_Error q _ _ => Pos.eqb p q
  | exec_ExitError p _ _, exec_ExitError q _ _ => Pos.eqb p q
  | os_error p _, os_error q _ => Pos.eqb p q
  | _, _ => false
  end.

(** The type assertion of [err] to a pointer to [exec.Error]: the value
    when that is the dynamic type, [None] when [ok] is false. *)
Definition assert_exec_Error (err : error) : option error :=
  match err with
  | exec_Error _ _ _ => Some err
  | _ => None
  end.

(** The package-level [errors.New] values; each call made its own pointer. *)
Definition ErrMachineExist : error := errorString 1 "machine already exists".
Definition ErrMachineNotExist : error := errorString 2 "machine does not exist".
Definition ErrCommandNotFound : error := errorString 3 "command not found".
(** [exec.ErrNotFound], the standard library's own [errors.New] value. *)
Definition exec_ErrNotFound : error :=
  errorString 4 "executable file not found in $PATH".

(** [type command struct] *)
Record command : Type := mk_command {
  program : string;
  sudoer : bool;   (* Is current user a sudoer? *)
  sudo : bool      (* Is current command expected to be run under sudo? *)
}.

Definition set_sudo (b : bool) (c : command) : command :=
  {| program := program c; sudoer := sudoer c; sudo := b |}.

(** An [io.Writer] as [exec.Cmd] distinguishes them: nil, the parent's own
    standard streams, or an in-memory buffer. *)
Inductive Writer : Type := nil_Writer | os_Stdout | os_Stderr | Buffer.

(** [exec.Cmd], the fields this package touches. *)
Record Cmd : Type := mk_Cmd {
  Path : string;
  Args : list string;
  Err : option error;
  Stdout : Writer;
  Stderr : Writer
}.

Definition with_Stdout (o : Writer) (c : Cmd) : Cmd :=
  {| Path := Path c; Args := Args c; Err := Err c; Stdout := o; Stderr := Stderr c |}.
Definition with_Stderr (e : Writer) (c : Cmd) : Cmd :=
  {| Path := Path c; Args := Args c; Err := Err c; Stdout := Stdout c; Stderr := e |}.

(** [user.User] *)
Record User : Type := mk_User { Uid : string; Gid : string; Username : string }.

(** ** The environment *)

(** What became of a process the runner tried to start. *)
Inductive proc : Type :=
| StartFailed (e : error)                         (* fork/exec failed *)
| Exited (out err : string) (status : option error).
    (* it ran, wrote [out] and [err] to its standard streams, and Wait
       returned [status]: nil for exit code 0, an exec.ExitError otherwise *)

Record World : Type := mk_World {
  GOOS : string;                                   (* runtime.GOOS *)
  filepath_Base : string -> string;                (* filepath.Base *)
  LookPath : string -> string + error;             (* exec.LookPath *)
  child : string -> list string -> Writer -> Writer -> proc;
    (* the process started from a path with an argument vector, its standard
       output and error connected as the two writers say *)
  user_Current : User + error;                     (* user.Current() *)
  GroupIds : User -> list string + error           (* method GroupIds of User *)
}.

(** ** Package state and effects *)

Definition loc := positive.

Inductive event : Type :=
| log_executing (program : string) (argv : list string) (* log.Printf("executing: %v %v") *)
| spawn (path : string) (argv : list string)            (* a child process was started *)
| console_out (text : string)                           (* child output on the parent's stdout *)
| console_err (text : string).                          (* child output on the parent's stderr *)

Record State : Type := mk_State {
  Verbose : bool;                 (* var Verbose bool *)
  heap : gmap loc command;        (* the addressable variables of type command *)
  trace : list event              (* side effects so far, oldest first *)
}.

Definition set_Verbose (v : bool) (s : State) : State :=
  {| Verbose := v; heap := heap s; trace := trace s |}.
Definition set_heap (h : gmap loc command) (s : State) : State :=
  {| Verbose := Verbose s; heap := h; trace := trace s |}.
Definition set_trace (t : list event) (s : State) : State :=
  {| Verbose := Verbose s; heap := heap s; trace := t |}.

(** The state monad of the package. *)
Definition M (A : Type) : Type := State -> A * State.

Definition ret {A} (a : A) : M A := fun s => (a, s).
Definition bind {A B} (m : M A) (k : A -> M B) : M B :=
  fun s => k (m s).1 (m s).2.

Declare Scope go_scope.
Delimit Scope go_scope with go.
Notation "x <- c ;; k" := (bind c (fun x => k))
  (at level 100, c at next level, right associativity) : go_scope.
Notation "c ;;; k" := (bind c (fun _ => k))
  (at level 100, right associativity) : go_scope.
Local Open Scope go_scope.

Definition get_Verbose : M bool := fun s => (Verbose s, s).
Definition emit (e : event) : M unit := fun s => (tt, set_trace (trace s ++ [e]) s).

(** A new variable holding [c]; its address is one no live variable has. *)
Definition alloc (c : command) : M loc :=
  fun s => let l := fresh (dom (heap s)) in (l, set_heap (<[l := c]> (heap s)) s).

(** Assignment through a pointer to a live variable. *)
Definition modify (l : loc) (f : command -> command) : M unit :=
  fun s => (tt, set_heap (alter f l (heap s)) s).

(** [defer d] before a body: [d] runs when the body has returned, and the
    body's result is the function's result. *)
Definition defer {A} (d : M unit) (body : M A) : M A :=
  r <- body ;; d ;;; ret r.

Fixpoint for_each {A} (f : A -> M unit) (l : list A) : M unit :=
  match l with
  | [] => ret tt
  | x :: rest => f x ;;; for_each f rest
  end.

(** [strconv.Itoa] *)
Definition Itoa (i : Z) : string := NilZero.string_of_int (Z.to_int i).

(** ** vbcmd.go *)

(** [type option func(Command)]: the [Command] an option receives is the
    pointer [&vbcmd] that [setOpts] hands it. *)
Definition option_ : Type := loc -> M unit.

(** [func sudo(sudo bool) option] *)
Definition sudo_option (sudo : bool) : option_ :=
  fun cmd => (* vbcmd is cmd asserted to a command pointer; vbcmd.sudo = sudo *)
    modify cmd (set_sudo sudo).

(** [func (vbcmd command) setOpts(opts ...option)]: the receiver is a value,
    so [vbcmd] is a variable of the callee initialised with a copy. *)
Definition setOpts (vbcmd : command) (opts : list option_) : M unit :=
  l <- alloc vbcmd ;;
  for_each (fun opt => (* var cmd Command = &vbcmd *) opt l) opts.

(** [func (vbcmd command) path() string] *)
Definition path (vbcmd : command) : string := program vbcmd.

(** [ok && ee == exec.ErrNotFound] after the type assertion of [err] to a pointer to [exec.Error] *)
Definition is_ErrNotFound (err : error) : bool :=
  match assert_exec_Error err with
  | Some ee => iface_eqb ee exec_ErrNotFound
  | None => false
  end.

Section Runner.

Variable w : World.

(** [exec.Command(name, arg...)] *)
Definition exec_Command (name : string) (arg : list string) : Cmd :=
  let cmd := {| Path := name; Args := name :: arg; Err := None;
                Stdout := nil_Writer; Stderr := nil_Writer |} in
  if String.eqb (filepath_Base w name) name then
    match LookPath w name with
    | inl lp => {| Path := lp; Args := Args cmd; Err := None;
                   Stdout := nil_Writer; Stderr := nil_Writer |}
    | inr err => {| Path := name; Args := Args cmd; Err := Some err;
                    Stdout := nil_Writer; Stderr := nil_Writer |}
    end
  else cmd.

(** What reaches a writer of the parent: the console shows it, a buffer
    keeps it, nil drops it.  The result is the text kept by a buffer. *)
Definition deliver (wr : Writer) (text : string) : M string :=
  match wr with
  | nil_Writer => ret EmptyString
  | os_Stdout => emit (console_out text) ;;; ret EmptyString
  | os_Stderr => emit (console_err text) ;;; ret EmptyString
  | Buffer => ret text
  end.

(** [Run], method of [Cmd]: the error, and the text left in the buffers given as
    [Stdout] and [Stderr]. *)
Definition Cmd_Run (c : Cmd) : M (option error * (string * string)) :=
  match Err c with
  | Some e => ret (Some e, (EmptyString, EmptyString))
  | None =>
      match child w (Path c) (Args c) (Stdout c) (Stderr c) with
      | StartFailed e => ret (Some e, (EmptyString, EmptyString))
      | Exited out err status =>
          emit (spawn (Path c) (Args c)) ;;;
          o <- deliver (Stdout c) out ;;
          e <- deliver (Stderr c) err ;;
          ret (status, (o, e))
      end
  end.

(** [Output], method of [Cmd]: standard output is captured; standard error too when
    the caller set none, and then it is stored in the [ExitError]. *)
Definition Cmd_Output (c : Cmd) : M (string * option error) :=
  match Stdout c with
  | nil_Writer =>
      let captureErr := match Stderr c with nil_Writer => true | _ => false end in
      let c1 := with_Stdout Buffer c in
      let c2 := if captureErr then with_Stderr Buffer c1 else c1 in
      r <- Cmd_Run c2 ;;
      let err :=
        match r.1 with
        | Some (exec_ExitError p code _) =>
            if captureErr then Some (exec_ExitError p code r.2.2) else r.1
        | other => other
        end in
      ret (r.2.1, err)
  | _ => ret (EmptyString, Some (errorString 5 "exec: Stdout already set"))
  end.

(** [func isSudoer() (bool, error)] *)
Fixpoint range_groupIDs (groupIDs : list string) : bool :=
  match groupIDs with
  | [] => false
  | groupID :: rest =>
      if String.eqb groupID "sudo" then true else range_groupIDs rest
  end.

Definition isSudoer : bool * option error :=
  match user_Current w with
  | inr err => (false, Some err)
  | inl me =>
      let r := GroupIds w me in
      if String.eqb (GOOS w) "linux" then
        match r with
        | inr err => (false, Some err)
        | inl groupIDs => (range_groupIDs groupIDs, None)
        end
      else (false, None)
  end.

(** [func (vbcmd command) prepare(args []string) *exec.Cmd] *)
Definition prepare (vbcmd : command) (args : list string) : M Cmd :=
  let elevate :=
    sudoer vbcmd && sudo vbcmd && negb (String.eqb (GOOS w) "windows") in
  let program_ := if elevate then "sudo" else program vbcmd in
  let argv := if elevate then ([] ++ [program vbcmd])%list else [] in
  let argv := (argv ++ args)%list in
  v <- get_Verbose ;;
  (if v then emit (log_executing program_ argv) else ret tt) ;;;
  ret (exec_Command program_ argv).

(** [func (vbcmd command) run(args ...string) error] *)
Definition run (vbcmd : command) (args : list string) : M (option error) :=
  defer (setOpts vbcmd [sudo_option false]) (
    cmd <- prepare vbcmd args ;;
    v <- get_Verbose ;;
    let cmd := if v then with_Stderr os_Stderr (with_Stdout os_Stdout cmd) else cmd in
    r <- Cmd_Run cmd ;;
    match r.1 with
    | Some err =>
        if is_ErrNotFound err then ret (Some ErrCommandNotFound)
        else ret (Some err)
    | None => ret None
    end).

(** [func (vbcmd command) runOut(args ...string) (string, error)] *)
Definition runOut (vbcmd : command) (args : list string) : M (string * option error) :=
  defer (setOpts vbcmd [sudo_option false]) (
    cmd <- prepare vbcmd args ;;
    v <- get_Verbose ;;
    let cmd := if v then with_Stderr os_Stderr cmd else cmd in
    r <- Cmd_Output cmd ;;
    let err :=
      match r.2 with
      | Some err => if is_ErrNotFound err then Some ErrCommandNotFound else Some err
      | None => None
      end in
    ret (r.1, err)).

(** [func (vbcmd command) runOutErr(args ...string) (string, string, error)] *)
Definition runOutErr (vbcmd : command) (args : list string)
  : M (string * string * option error) :=
  defer (setOpts vbcmd [sudo_option false]) (
    cmd <- prepare vbcmd args ;;
    let cmd := with_Stderr Buffer (with_Stdout Buffer cmd) in
    r <- Cmd_Run cmd ;;
    let err :=
      match r.1 with
      | Some err => if is_ErrNotFound err then Some ErrCommandNotFound else Some err
      | None => None
      end in
    ret (r.2.1, r.2.2, err)).

End Runner.

(** ** The [Command] interface and import.go *)

(** [type Command interface]: an interface value is the method set of the
    value stored in it. *)
Record Command : Type := mk_Command {
  Command_setOpts : list option_ -> M unit;
  Command_path : string;
  Command_run : list string -> M (option error);
  Command_runOut : list string -> M (string * option error);
  Command_runOutErr : list string -> M (string * string * option error)
}.

(** A [command] value stored in a [Command]: every method call copies it. *)
Definition command_Command (w : World) (vbcmd : command) : Command :=
  {| Command_setOpts := setOpts vbcmd;
     Command_path := path vbcmd;
     Command_run := run w vbcmd;
     Command_runOut := runOut w vbcmd;
     Command_runOutErr := runOutErr w vbcmd |}.

(** [func ImportOVF(path string, vsys int, name string) error].  The
    function [Manage] it calls is declared outside the two files embedded
    here and is taken as a parameter. *)
Definition ImportOVF (Manage : M Command) (path : string) (vsys : Z) (name : string)
  : M (option error) :=
  manage <- Manage ;;
  Command_run manage ["import"; path; "--vsys"; Itoa vsys; "--vmname"; name].

(** ** Sample environments *)

Module Samples.

Definition me : User := {| Uid := "1000"; Gid := "1000"; Username := "vbox" |}.

(** A path search that knows [VBoxManage] and [sudo] only; any other name
    fails the way [exec.LookPath] reports a name absent from the search
    path, with an [exec.Error] that wraps [exec.ErrNotFound]. *)
Definition lookup (name : string) : string + error :=
  if String.eqb name "VBoxManage" then inl "/usr/bin/VBoxManage"
  else if String.eqb name "sudo" then inl "/usr/bin/sudo"
  else inr (exec_Error 9 name exec_ErrNotFound).

(** A Linux host whose stub tool writes [ok] and exits 0. *)
Definition linux_ok : World :=
  {| GOOS := "linux";
     filepath_Base := fun name => name;
     LookPath := lookup;
     child := fun _ _ _ _ => Exited "ok" EmptyString None;
     user_Current := inl me;
     GroupIds := fun _ => inl ["1000"; "sudo"] |}.

(** The same host with a stub that writes [out] and [err] and exits 1. *)
Definition linux_exit1 : World :=
  {| GOOS := "linux";
     filepath_Base := fun name => name;
     LookPath := lookup;
     child := fun _ _ _ _ => Exited "out" "err" (Some (exec_ExitError 10 1 EmptyString));
     user_Current := inl me;
     GroupIds := fun _ => inl ["1000"] |}.

(** A macOS host on which the group lookup fails. *)
Definition darwin_nogroups : World :=
  {| GOOS := "darwin";
     filepath_Base := fun name => name;
     LookPath := lookup;
     child := fun _ _ _ _ => Exited "ok" EmptyString None;
     user_Current := inl me;
     GroupIds := fun _ => inr (os_error 11 "user: list groups: no such file") |}.

Definition vbox : command :=
  {| program := "VBoxManage"; sudoer := false; sudo := false |}.
Definition vbox_elevated : command :=
  {| program := "VBoxManage"; sudoer := true; sudo := true |}.
Definition absent_tool : command :=
  {| program := "doesnotexist_tool"; sudoer := false; sudo := false |}.

(** A caller whose variable at address 1 holds the given command. *)
Definition caller (c : command) (verbose : bool) : State :=
  {| Verbose := verbose; heap := {[ 1%positive := c ]}; trace := [] |}.

End Samples.


(** ** Vocabulary of the statements *)

(** An option that does nothing but assign, through the pointer it is
    handed, to the [command] behind it. *)
Definition local_option (opt : option_) : Prop :=
  forall l, exists f, opt l = modify l f.

(** The text a writer keeps for the caller: a buffer keeps all of it. *)
Definition kept (wr : Writer) (text : string) : string :=
  match wr with Buffer => text | _ => EmptyString end.

(** [e == ErrMachineExist || e == ErrMachineNotExist] *)
Definition machine_sentinel (e : error) : bool :=
  iface_eqb e ErrMachineExist || iface_eqb e ErrMachineNotExist.

Definition never_sentinel (r : option error) : Prop :=
  forall e, r = Some e -> machine_sentinel e = false.

(** The standard library does not know this package's variables: no error
    it hands out is one of the two sentinels. *)
Record foreign_errors (w : World) : Prop := {
  foreign_LookPath : forall name e, LookPath w name = inr e -> machine_sentinel e = false;
  foreign_start : forall p a o e x,
    child w p a o e = StartFailed x -> machine_sentinel x = false;
  foreign_wait : forall p a o e out err x,
    child w p a o e = Exited out err (Some x) -> machine_sentinel x = false;
  foreign_user : forall e, user_Current w = inr e -> machine_sentinel e = false;
  foreign_groups : forall u e, GroupIds w u = inr e -> machine_sentinel e = false
}.

(** The events text gives rise to when it reaches a writer of the parent. *)
Definition shown (wr : Writer) (text : string) : list event :=
  match wr with
  | os_Stdout => [console_out text]
  | os_Stderr => [console_err text]
  | _ => []
  end.

(** The side effects of running a prepared command. *)
Definition effects_of (w : World) (c : Cmd) : list event :=
  match Err c with
  | Some _ => []
  | None =>
      match child w (Path c) (Args c) (Stdout c) (Stderr c) with
      | StartFailed _ => []
      | Exited out err _ =>
          spawn (Path c) (Args c) :: (shown (Stdout c) out ++ shown (Stderr c) err)%list
      end
  end.

(** Text of the child on the parent's console. *)
Definition is_console (e : event) : bool :=
  match e with
  | console_out _ | console_err _ => true
  | _ => false
  end.

Definition is_spawn (e : event) : bool :=
  match e with
  | spawn _ _ => true
  | _ => false
  end.

(** The command line that stands for an elevated invocation. *)
Definition sudo_command : command :=
  {| program := "sudo"; sudoer := false; sudo := false |}.

(** ** Frame properties: what the monadic code leaves alone *)

(** A computation that assigns to no [command] variable. *)
Definition keeps_heap {A} (m : M A) : Prop := forall s, heap (m s).2 = heap s.

Create HintDb frame.

Lemma keeps_heap_ret {A} (a : A) : keeps_heap (ret a).
Proof. by intros s. Qed.

Lemma keeps_heap_bind {A B} (m : M A) (k : A -> M B) :
  keeps_heap m -> (forall a, keeps_heap (k a)) -> keeps_heap (bind m k).
Proof. intros Hm Hk s. unfold bind. by rewrite Hk, Hm. Qed.

Lemma keeps_heap_get_Verbose : keeps_heap get_Verbose.
Proof. by intros s. Qed.

Lemma keeps_heap_emit e : keeps_heap (emit e).
Proof. by intros s. Qed.

Lemma keeps_heap_if {A} (b : bool) (m1 m2 : M A) :
  keeps_heap m1 -> keeps_heap m2 -> keeps_heap (if b then m1 else m2).
Proof. by destruct b. Qed.

#[local] Hint Resolve keeps_heap_ret keeps_heap_bind keeps_heap_get_Verbose
  keeps_heap_emit keeps_heap_if : frame.

Lemma keeps_heap_deliver wr text : keeps_heap (deliver wr text).
Proof. destruct wr; simpl; auto with frame. Qed.

#[local] Hint Resolve keeps_heap_deliver : frame.

Lemma keeps_heap_Cmd_Run w c : keeps_heap (Cmd_Run w c).
Proof.
  unfold Cmd_Run. destruct (Err c); [auto with frame|].
  destruct (child w _ _ _ _); auto 10 with frame.
Qed.

#[local] Hint Resolve keeps_heap_Cmd_Run : frame.

Lemma keeps_heap_Cmd_Output w c : keeps_heap (Cmd_Output w c).
Proof. unfold Cmd_Output. destruct (Stdout c); auto with frame. Qed.

Lemma keeps_heap_prepare w c args : keeps_heap (prepare w c args).
Proof. unfold prepare. auto 10 with frame. Qed.

#[local] Hint Resolve keeps_heap_Cmd_Output keeps_heap_prepare : frame.

Lemma local_sudo_option b : local_option (sudo_option b).
Proof. intros l. by exists (set_sudo b). Qed.

(** Options applied to the variable at [l] touch no other variable, nor the
    switch, nor the trace. *)
Lemma for_each_local (opts : list option_) (l : loc) (s : State) :
  Forall local_option opts ->
  let s' := (for_each (fun opt => opt l) opts s).2 in
  Verbose s' = Verbose s /\ trace s' = trace s /\
  forall l', l' ≠ l -> heap s' !! l' = heap s !! l'.
Proof.
  intros Hopts. revert s. induction Hopts as [|opt opts Hopt _ IH]; intros s.
  - by simpl.
  - simpl. unfold bind at 1. destruct (Hopt l) as [f Hf].
    destruct (IH (opt l s).2) as (HV & HT & HH).
    rewrite Hf in *. simpl in *. split_and!; [done..|].
    intros l' Hl'. rewrite HH by done. by rewrite lookup_alter_ne.
Qed.

(** [setOpts] works on a variable of its own: whatever the options assign,
    every variable that was live before the call keeps its value. *)
Lemma setOpts_frame (c : command) (opts : list option_) (s : State) :
  Forall local_option opts ->
  let s' := (setOpts c opts s).2 in
  Verbose s' = Verbose s /\ trace s' = trace s /\
  forall l x, heap s !! l = Some x -> heap s' !! l = Some x.
Proof.
  intros Hopts. unfold setOpts, bind. simpl.
  set (l0 := fresh (dom (heap s))).
  destruct (for_each_local opts l0 (alloc c s).2 Hopts) as (HV & HT & HH).
  split_and!; [done..|].
  intros l x Hl.
  assert (l ≠ l0) as Hne.
  { intros ->. apply (is_fresh (dom (heap s))). apply elem_of_dom. by eexists. }
  unfold alloc in HH. simpl in HH. fold l0 in HH.
  rewrite HH by done. by rewrite lookup_insert_ne.
Qed.

(** A deferred [setOpts] after a body that assigns to no variable: the
    caller's variables are as they were. *)
Lemma defer_setOpts_frame {A} (c : command) (body : M A) (s : State) (l : loc) (x : command) :
  keeps_heap body ->
  heap s !! l = Some x ->
  heap (defer (setOpts c [sudo_option false]) body s).2 !! l = Some x.
Proof.
  intros Hbody Hl. unfold defer, bind.
  change ((ret (body s).1 (setOpts c [sudo_option false] (body s).2).2).2)
    with ((setOpts c [sudo_option false] (body s).2).2).
  apply (setOpts_frame c [sudo_option false] (body s).2).
  - repeat constructor. apply local_sudo_option.
  - by rewrite Hbody.
Qed.

(** The result of a function with a deferred call is the body's. *)
Lemma defer_result {A} (d : M unit) (body : M A) (s : State) :
  (defer d body s).1 = (body s).1.
Proof. done. Qed.

Lemma run_frame w c args s l x :
  heap s !! l = Some x -> heap (run w c args s).2 !! l = Some x.
Proof.
  apply defer_setOpts_frame.
  apply keeps_heap_bind; [auto with frame|intros cmd].
  apply keeps_heap_bind; [auto with frame|intros v].
  apply keeps_heap_bind; [auto with frame|intros r].
  destruct (r.1) as [err|]; [destruct (is_ErrNotFound err)|]; auto with frame.
Qed.

Lemma runOut_frame w c args s l x :
  heap s !! l = Some x -> heap (runOut w c args s).2 !! l = Some x.
Proof.
  apply defer_setOpts_frame.
  repeat (apply keeps_heap_bind; [auto with frame|intros ?]). auto with frame.
Qed.

Lemma runOutErr_frame w c args s l x :
  heap s !! l = Some x -> heap (runOutErr w c args s).2 !! l = Some x.
Proof.
  apply defer_setOpts_frame.
  repeat (apply keeps_heap_bind; [auto with frame|intros ?]). auto with frame.
Qed.

(** ** Error classification *)

(** The test the three modes make on a failed start, the prepared pointer
    to an [exec.Error] compared with the interface value
    [exec.ErrNotFound], holds of no error: the value it is compared with
    has another dynamic type. *)
Lemma is_ErrNotFound_false (err : error) : is_ErrNotFound err = false.
Proof. by destruct err. Qed.

Lemma prepare_Verbose w c args s : Verbose (prepare w c args s).2 = Verbose s.
Proof. unfold prepare, bind. simpl. by destruct (Verbose s) eqn:E. Qed.

#[local] Arguments prepare : simpl never.
#[local] Arguments Cmd_Run : simpl never.
#[local] Arguments Cmd_Output : simpl never.

(** The three modes hand back the error of the standard library as it is. *)
Lemma run_result w c args s :
  (run w c args s).1 =
  (Cmd_Run w (if Verbose s
              then with_Stderr os_Stderr (with_Stdout os_Stdout (prepare w c args s).1)
              else (prepare w c args s).1) (prepare w c args s).2).1.1.
Proof.
  unfold run. rewrite defer_result. unfold bind, get_Verbose. cbn [fst snd].
  rewrite prepare_Verbose.
  match goal with |- context [Cmd_Run w ?c ?st] => destruct (Cmd_Run w c st) as [[[e|] ?] ?] end;
    cbn [fst snd]; [|done].
  by rewrite is_ErrNotFound_false.
Qed.

Lemma runOutErr_result w c args s :
  (runOutErr w c args s).1 =
  let r := (Cmd_Run w (with_Stderr Buffer (with_Stdout Buffer (prepare w c args s).1))
              (prepare w c args s).2).1 in
  (r.2.1, r.2.2, r.1).
Proof.
  unfold runOutErr. rewrite defer_result. unfold bind, get_Verbose. cbn [fst snd].
  match goal with |- context [Cmd_Run w ?c ?st] => destruct (Cmd_Run w c st) as [[[e|] ?] ?] end;
    cbn [fst snd]; [|done].
  by rewrite is_ErrNotFound_false.
Qed.

Lemma runOut_result w c args s :
  (runOut w c args s).1 =
  (Cmd_Output w (if Verbose s then with_Stderr os_Stderr (prepare w c args s).1
                 else (prepare w c args s).1) (prepare w c args s).2).1.
Proof.
  unfold runOut. rewrite defer_result. unfold bind, get_Verbose. cbn [fst snd].
  rewrite prepare_Verbose.
  match goal with |- context [Cmd_Output w ?c ?st] => destruct (Cmd_Output w c st) as [[? [e|]] ?] end;
    cbn [fst snd]; [|done].
  by rewrite is_ErrNotFound_false.
Qed.

(** The command that [prepare] builds does not depend on the state. *)
Lemma prepare_result w c args s :
  (prepare w c args s).1 =
  exec_Command w
    (if sudoer c && sudo c && negb (String.eqb (GOOS w) "windows") then "sudo" else program c)
    ((if sudoer c && sudo c && negb (String.eqb (GOOS w) "windows")
      then [program c] else []) ++ args)%list.
Proof. unfold prepare, bind. simpl. by destruct (Verbose s). Qed.

Lemma Args_exec_Command w name arg : Args (exec_Command w name arg) = name :: arg.
Proof.
  unfold exec_Command. destruct (String.eqb _ _); [|done]. by destruct (LookPath w name).
Qed.

(** ** The claims *)

Import Samples.

(** C1 (the code departs from it).  The claim: in each of the three modes a
    start that fails because the executable is not on the search path
    returns the sentinel [ErrCommandNotFound].  On a host where the search
    for [doesnotexist_tool] fails with an [exec.Error] wrapping
    [exec.ErrNotFound], each mode returns that [exec.Error] itself, which
    is not the sentinel. *)
Theorem C1_not_found_returned_unclassified :
  forall (args : list string) (s : State),
    let e := exec_Error 9 "doesnotexist_tool" exec_ErrNotFound in
    (run linux_ok absent_tool args s).1 = Some e /\
    (runOut linux_ok absent_tool args s).1 = (EmptyString, Some e) /\
    (runOutErr linux_ok absent_tool args s).1 = (EmptyString, EmptyString, Some e) /\
    iface_eqb e ErrCommandNotFound = false.
Proof.
  intros args s e.
  rewrite run_result, runOut_result, runOutErr_result, prepare_result.
  by destruct (Verbose s).
Qed.

(** C2 (the code departs from it).  The claim: after any invocation the
    command's [sudo] flag is false, even if it was true before.  A caller
    whose command has the flag set still has it set after [run], [runOut]
    and [runOutErr], on every host and for all arguments: the deferred
    reset assigns to a copy. *)
Theorem C2_sudo_flag_survives_invocation :
  forall (w : World) (args : list string) (verbose : bool),
    let s := caller vbox_elevated verbose in
    sudo <$> heap (run w vbox_elevated args s).2 !! 1%positive = Some true /\
    sudo <$> heap (runOut w vbox_elevated args s).2 !! 1%positive = Some true /\
    sudo <$> heap (runOutErr w vbox_elevated args s).2 !! 1%positive = Some true.
Proof.
  intros w args verbose s.
  assert (heap s !! 1%positive = Some vbox_elevated) as Hl by done.
  rewrite (run_frame _ _ _ _ _ _ Hl), (runOut_frame _ _ _ _ _ _ Hl),
    (runOutErr_frame _ _ _ _ _ _ Hl).
  done.
Qed.

(** C3.  [setOpts] takes the command by value: whatever the options assign
    through the pointer they are handed, the caller's variable holds the
    same command after the call, as it does after [run], [runOut] and
    [runOutErr] with their deferred [sudo(false)]; so a later invocation on
    it prepares the same process. *)
Theorem C3_setOpts_leaves_caller_unchanged
    (c : command) (opts : list option_) (l : loc) (s : State) :
  Forall local_option opts ->
  heap s !! l = Some c ->
  let s' := (setOpts c opts s).2 in
  heap s' !! l = Some c /\
  (forall w args, (prepare w c args s').1 = (prepare w c args s).1) /\
  (forall w args,
     heap (run w c args s).2 !! l = Some c /\
     heap (runOut w c args s).2 !! l = Some c /\
     heap (runOutErr w c args s).2 !! l = Some c).
Proof.
  intros Hopts Hl s'.
  destruct (setOpts_frame c opts s Hopts) as (_ & _ & HH).
  split_and!.
  - by apply HH.
  - intros w args. by rewrite !prepare_result.
  - intros w args. split_and!;
      [by apply run_frame | by apply runOut_frame | by apply runOutErr_frame].
Qed.

Lemma C3_setOpts_leaves_caller_unchanged_witness :
  let c := vbox_elevated in
  let opts := [sudo_option true; sudo_option false] in
  let s := caller c false in
  let s' := (setOpts c opts s).2 in
  heap s' !! 1%positive = Some c /\
  (forall w args, (prepare w c args s').1 = (prepare w c args s).1) /\
  (forall w args,
     heap (run w c args s).2 !! 1%positive = Some c /\
     heap (runOut w c args s).2 !! 1%positive = Some c /\
     heap (runOutErr w c args s).2 !! 1%positive = Some c).
Proof.
  intros c opts s.
  refine (C3_setOpts_leaves_caller_unchanged c opts 1%positive s _ _).
  - repeat constructor; apply local_sudo_option.
  - apply lookup_singleton_eq.
Defined.

(** C4.  [prepare] builds the argument vector: when the user is a sudoer,
    the command asks for sudo and the platform is not Windows, it is
    [sudo], the program and the caller's arguments; otherwise the program
    and the caller's arguments; the arguments are as given, in order. *)
Theorem C4_prepare_argument_vector (w : World) (c : command) (args : list string) (s : State) :
  Args (prepare w c args s).1 =
  if sudoer c && sudo c && negb (String.eqb (GOOS w) "windows")
  then "sudo" :: program c :: args
  else program c :: args.
Proof.
  rewrite prepare_result, Args_exec_Command.
  by destruct (sudoer c && sudo c && negb (String.eqb (GOOS w) "windows")).
Qed.

(** C5.  Preparing with the [sudo] flag not set gives the same command,
    state and log as preparing with it set for a user who is not a sudoer. *)
Theorem C5_elevation_needs_permission_and_request
    (w : World) (prog : string) (permitted : bool) (args : list string) (s : State) :
  prepare w {| program := prog; sudoer := permitted; sudo := false |} args s =
  prepare w {| program := prog; sudoer := false; sudo := true |} args s.
Proof. unfold prepare. simpl. by rewrite andb_false_r. Qed.

(** ** What the standard-library calls return *)

Lemma deliver_result wr text s : (deliver wr text s).1 = kept wr text.
Proof. by destruct wr. Qed.

Lemma Cmd_Run_result w c s :
  (Cmd_Run w c s).1 =
  match Err c with
  | Some e => (Some e, (EmptyString, EmptyString))
  | None =>
      match child w (Path c) (Args c) (Stdout c) (Stderr c) with
      | StartFailed e => (Some e, (EmptyString, EmptyString))
      | Exited out err status => (status, (kept (Stdout c) out, kept (Stderr c) err))
      end
  end.
Proof.
  unfold Cmd_Run. destruct (Err c); [done|].
  destruct (child w _ _ _ _); [done|].
  unfold bind. cbn [fst snd ret]. by rewrite !deliver_result.
Qed.

Lemma Cmd_Output_result w c s :
  Stdout c = nil_Writer ->
  (Cmd_Output w c s).1 =
  let captureErr := match Stderr c with nil_Writer => true | _ => false end in
  let c2 := if captureErr then with_Stderr Buffer (with_Stdout Buffer c)
            else with_Stdout Buffer c in
  let r := (Cmd_Run w c2 s).1 in
  (r.2.1,
   match r.1 with
   | Some (exec_ExitError p code _) =>
       if captureErr then Some (exec_ExitError p code r.2.2) else r.1
   | other => other
   end).
Proof. intros Hout. unfold Cmd_Output. by rewrite Hout. Qed.

Lemma Stdout_exec_Command w name arg : Stdout (exec_Command w name arg) = nil_Writer.
Proof.
  unfold exec_Command. destruct (String.eqb _ _); [|done]. by destruct (LookPath w name).
Qed.

Lemma Stderr_exec_Command w name arg : Stderr (exec_Command w name arg) = nil_Writer.
Proof.
  unfold exec_Command. destruct (String.eqb _ _); [|done]. by destruct (LookPath w name).
Qed.

(** C6.  When the child ran, [runOutErr] returns the text it wrote to its
    standard output and the text it wrote to its standard error, whatever
    its exit status, and an error exactly when the wait reported one; in
    particular a child that writes to standard error and exits non-zero
    yields a non-empty standard-error text and a non-nil error. *)
Theorem C6_runOutErr_returns_both_texts
    (w : World) (c : command) (args : list string) (s : State)
    (out err : string) (status : option error) :
  let cmd := (prepare w c args s).1 in
  Err cmd = None ->
  child w (Path cmd) (Args cmd) Buffer Buffer = Exited out err status ->
  let r := (runOutErr w c args s).1 in
  r.1.1 = out /\ r.1.2 = err /\ (r.2 = None <-> status = None) /\
  (forall p code e,
     status = Some (exec_ExitError p code e) -> code <> 0 -> err <> EmptyString ->
     r.1.2 <> EmptyString /\ r.2 <> None).
Proof.
  intros cmd HErr Hchild r. subst r.
  rewrite runOutErr_result, Cmd_Run_result. fold cmd.
  cbn [with_Stderr with_Stdout Err Path Args Stdout Stderr].
  rewrite HErr, Hchild. cbn [fst snd kept].
  split_and!; [done..|].
  intros p code e -> _ Hne. by split.
Qed.

Lemma C6_runOutErr_returns_both_texts_witness :
  let r := (runOutErr linux_exit1 vbox ["list"; "vms"] (caller vbox false)).1 in
  r.1.1 = "out" /\ r.1.2 = "err" /\
  (r.2 = None <-> Some (exec_ExitError 10 1 EmptyString) = None) /\
  (forall p code e,
     Some (exec_ExitError 10 1 EmptyString) = Some (exec_ExitError p code e) ->
     code <> 0 -> "err" <> EmptyString ->
     r.1.2 <> EmptyString /\ r.2 <> None).
Proof.
  apply (C6_runOutErr_returns_both_texts linux_exit1 vbox ["list"; "vms"]
           (caller vbox false) "out" "err" (Some (exec_ExitError 10 1 EmptyString)));
    reflexivity.
Defined.

(** The loop over the group IDs is a membership test. *)
Lemma range_groupIDs_elem_of (groupIDs : list string) :
  range_groupIDs groupIDs = bool_decide ("sudo" ∈ groupIDs).
Proof.
  induction groupIDs as [|g rest IH]; [done|].
  simpl. destruct (String.eqb_spec g "sudo") as [->|Hne].
  - symmetry. apply bool_decide_eq_true. left.
  - rewrite IH. apply bool_decide_ext. rewrite elem_of_cons.
    split; [by right | by intros [?|?]].
Qed.

(** C7 as stated fails: the claim has every failure of the user or group
    lookup propagated.  On a platform other than Linux the group lookup
    fails and [isSudoer] answers false with no error. *)
Lemma C7_group_failure_dropped_off_linux :
  user_Current darwin_nogroups = inl me /\
  GroupIds darwin_nogroups me = inr (os_error 11 "user: list groups: no such file") /\
  isSudoer darwin_nogroups = (false, None).
Proof. done. Qed.

(** C7, amended.  [isSudoer] returns the error of [user.Current] when that
    fails; on Linux it returns the error of the group lookup when that
    fails, and otherwise true exactly when the group IDs contain [sudo];
    on every other platform it returns false and no error, whether or not
    the group lookup failed. *)
Theorem C7_isSudoer_spec (w : World) :
  isSudoer w =
  match user_Current w with
  | inr err => (false, Some err)
  | inl me =>
      if String.eqb (GOOS w) "linux" then
        match GroupIds w me with
        | inr err => (false, Some err)
        | inl groupIDs => (bool_decide ("sudo" ∈ groupIDs), None)
        end
      else (false, None)
  end.
Proof.
  unfold isSudoer. destruct (user_Current w) as [u|]; [|done].
  destruct (String.eqb _ _); [|done].
  destruct (GroupIds w u); [|done]. by rewrite range_groupIDs_elem_of.
Qed.

(** C8.  For a child that can be started and that, however its streams are
    connected, writes the same text and exits 0, each of the three modes
    returns the same value with [Verbose] on and with [Verbose] off. *)
Theorem C8_verbose_does_not_change_result
    (w : World) (c : command) (args : list string) (s : State) (out err : string) :
  let cmd := (prepare w c args s).1 in
  Err cmd = None ->
  (forall o e, child w (Path cmd) (Args cmd) o e = Exited out err None) ->
  (run w c args (set_Verbose true s)).1 = (run w c args (set_Verbose false s)).1 /\
  (runOut w c args (set_Verbose true s)).1 = (runOut w c args (set_Verbose false s)).1 /\
  (runOutErr w c args (set_Verbose true s)).1 = (runOutErr w c args (set_Verbose false s)).1.
Proof.
  intros cmd HErr Hchild.
  assert (forall v, (prepare w c args (set_Verbose v s)).1 = cmd) as Hcmd
    by (intros v; unfold cmd; by rewrite !prepare_result).
  rewrite !run_result, !runOut_result, !runOutErr_result, !Hcmd.
  cbn [Verbose set_Verbose].
  assert (Stdout cmd = nil_Writer /\ Stderr cmd = nil_Writer) as [Ho He].
  { unfold cmd. rewrite prepare_result. split;
      [apply Stdout_exec_Command | apply Stderr_exec_Command]. }
  rewrite !Cmd_Output_result by done.
  cbn zeta. cbn [with_Stderr Stderr]. rewrite He. rewrite !Cmd_Run_result.
  cbn [with_Stderr with_Stdout Err Path Args Stdout Stderr].
  rewrite HErr, !Hchild. done.
Qed.

Lemma C8_verbose_does_not_change_result_witness :
  (run linux_ok vbox ["list"; "vms"] (set_Verbose true (caller vbox false))).1
  = (run linux_ok vbox ["list"; "vms"] (set_Verbose false (caller vbox false))).1 /\
  (runOut linux_ok vbox ["list"; "vms"] (set_Verbose true (caller vbox false))).1
  = (runOut linux_ok vbox ["list"; "vms"] (set_Verbose false (caller vbox false))).1 /\
  (runOutErr linux_ok vbox ["list"; "vms"] (set_Verbose true (caller vbox false))).1
  = (runOutErr linux_ok vbox ["list"; "vms"] (set_Verbose false (caller vbox false))).1.
Proof.
  apply (C8_verbose_does_not_change_result linux_ok vbox ["list"; "vms"]
           (caller vbox false) "ok" EmptyString).
  - reflexivity.
  - intros o e. reflexivity.
Defined.

(** The hypothesis of success is needed: when the child exits non-zero,
    [runOut] with [Verbose] off stores the captured standard error in the
    error it returns, and with [Verbose] on it does not. *)
Remark verbose_changes_a_failed_runOut :
  (runOut linux_exit1 vbox ["list"] (caller vbox false)).1
    = ("out", Some (exec_ExitError 10 1 "err")) /\
  (runOut linux_exit1 vbox ["list"] (caller vbox true)).1
    = ("out", Some (exec_ExitError 10 1 EmptyString)).
Proof. done. Qed.

(** ** import.go *)

(** [Itoa] writes its argument in decimal: reading the digits back gives
    the number. *)
Lemma Itoa_decimal (i : Z) :
  option_map Z.of_int (NilZero.int_of_string (Itoa i)) = Some i.
Proof.
  unfold Itoa. rewrite NilZero.isi.
  - simpl. by rewrite DecimalZ.of_to.
  - destruct i; simpl; try discriminate.
    intros [= H]. by apply (DecimalPos.Unsigned.to_uint_nonnil p).
  - destruct i; simpl; try discriminate.
    intros [= H]. by apply (DecimalPos.Unsigned.to_uint_nonnil p).
Qed.

(** C9.  [ImportOVF] runs, through [run] of the command that [Manage]
    returns, the vector [import], the path, [--vsys], the decimal string of
    [vsys], [--vmname] and the name; its result is that of [run], an error
    or nil and no text; with a [command] behind the interface the process is
    prepared with exactly this vector after the program name. *)
Theorem C9_ImportOVF_argument_vector
    (w : World) (c : command) (path_ : string) (vsys : Z) (name : string) (s : State) :
  let argv := ["import"; path_; "--vsys"; Itoa vsys; "--vmname"; name] in
  (forall manage : Command,
     ImportOVF (ret manage) path_ vsys name s = Command_run manage argv s) /\
  ImportOVF (ret (command_Command w c)) path_ vsys name s = run w c argv s /\
  Args (prepare w c argv s).1 =
    ((if sudoer c && sudo c && negb (String.eqb (GOOS w) "windows")
      then ["sudo"; program c] else [program c]) ++ argv)%list /\
  option_map Z.of_int (NilZero.int_of_string (Itoa vsys)) = Some vsys.
Proof.
  intros argv. split_and!.
  - done.
  - done.
  - rewrite prepare_result, Args_exec_Command.
    by destruct (sudoer c && sudo c && negb (String.eqb (GOOS w) "windows")).
  - apply Itoa_decimal.
Qed.

(** ** The reserved sentinels *)

Lemma never_sentinel_None : never_sentinel None.
Proof. by intros e. Qed.

Lemma never_sentinel_Err_exec_Command w name arg :
  foreign_errors w -> never_sentinel (Err (exec_Command w name arg)).
Proof.
  intros Hw e. unfold exec_Command. destruct (String.eqb _ _); [|done].
  destruct (LookPath w name) as [lp|err] eqn:Hlp; [done|].
  intros [= <-]. by eapply foreign_LookPath.
Qed.

Lemma never_sentinel_Cmd_Run w c s :
  foreign_errors w -> never_sentinel (Err c) -> never_sentinel (Cmd_Run w c s).1.1.
Proof.
  intros Hw Hc e. rewrite Cmd_Run_result.
  destruct (Err c) as [e0|]; [by intros [= <-]; apply Hc|].
  destruct (child w _ _ _ _) as [x|out err [x|]] eqn:Hch; cbn [fst].
  - intros [= <-]. by eapply foreign_start.
  - intros [= <-]. by eapply foreign_wait.
  - done.
Qed.

Lemma never_sentinel_Cmd_Output w c s :
  foreign_errors w -> never_sentinel (Err c) -> never_sentinel (Cmd_Output w c s).1.2.
Proof.
  intros Hw Hc e. unfold Cmd_Output.
  destruct (Stdout c); try (by intros [= <-]).
  unfold bind. cbn [fst snd ret].
  match goal with |- context [Cmd_Run w ?c2 s] =>
    pose proof (never_sentinel_Cmd_Run w c2 s Hw) as Hrun;
    destruct (Cmd_Run w c2 s).1.1 as [[]|] eqn:Hr
  end; try (by intros [= <-]; apply Hrun; [by destruct (Stderr c)|]).
  - by destruct (Stderr c); intros [= <-].
  - done.
Qed.

(** C10.  On a host whose standard library hands out none of this
    package's values, no error returned by [run], [runOut], [runOutErr],
    [isSudoer] or [ImportOVF] over a [command] is [ErrMachineExist] or
    [ErrMachineNotExist]. *)
Theorem C10_machine_sentinels_never_returned
    (w : World) (c : command) (args : list string) (s : State) :
  foreign_errors w ->
  never_sentinel (run w c args s).1 /\
  never_sentinel (runOut w c args s).1.2 /\
  never_sentinel (runOutErr w c args s).1.2 /\
  never_sentinel (isSudoer w).2 /\
  (forall path_ vsys name,
     never_sentinel (ImportOVF (ret (command_Command w c)) path_ vsys name s).1).
Proof.
  intros Hw.
  assert (forall a st, never_sentinel (run w c a st).1) as Hrun.
  { intros a st. rewrite run_result, prepare_result.
    apply never_sentinel_Cmd_Run; [done|].
    destruct (Verbose st); by apply never_sentinel_Err_exec_Command. }
  split_and!.
  - apply Hrun.
  - rewrite runOut_result, prepare_result.
    apply never_sentinel_Cmd_Output; [done|].
    destruct (Verbose s); by apply never_sentinel_Err_exec_Command.
  - rewrite runOutErr_result. cbn zeta. cbn [snd]. rewrite prepare_result.
    apply never_sentinel_Cmd_Run; [done|].
    by apply never_sentinel_Err_exec_Command.
  - unfold isSudoer. destruct (user_Current w) as [u|err] eqn:Hu.
    + destruct (String.eqb _ _); [|apply never_sentinel_None].
      destruct (GroupIds w u) as [ids|err] eqn:Hg; [apply never_sentinel_None|].
      intros e [= <-]. by eapply foreign_groups.
    + intros e [= <-]. by eapply foreign_user.
  - intros path_ vsys name. apply Hrun.
Qed.

Lemma foreign_errors_linux_exit1 : foreign_errors linux_exit1.
Proof.
  split; simpl.
  - intros name e. unfold lookup.
    destruct (String.eqb name "VBoxManage"); [done|].
    destruct (String.eqb name "sudo"); [done|]. by intros [= <-].
  - done.
  - intros. by simplify_eq.
  - done.
  - done.
Defined.

Lemma C10_machine_sentinels_never_returned_witness :
  never_sentinel (run linux_exit1 vbox ["list"] (caller vbox false)).1 /\
  never_sentinel (runOut linux_exit1 vbox ["list"] (caller vbox false)).1.2 /\
  never_sentinel (runOutErr linux_exit1 vbox ["list"] (caller vbox false)).1.2 /\
  never_sentinel (isSudoer linux_exit1).2 /\
  (forall path_ vsys name,
     never_sentinel
       (ImportOVF (ret (command_Command linux_exit1 vbox)) path_ vsys name
          (caller vbox false)).1).
Proof.
  apply (C10_machine_sentinels_never_returned linux_exit1 vbox ["list"] (caller vbox false)).
  apply foreign_errors_linux_exit1.
Defined.

(** ** Further properties of the runner *)

(** *** The state after each step *)

Lemma set_trace_app_nil (s : State) : set_trace (trace s ++ []) s = s.
Proof. destruct s. unfold set_trace. simpl. by rewrite app_nil_r. Qed.

Lemma set_trace_set_trace (t1 t2 : list event) (s : State) :
  set_trace t2 (set_trace t1 s) = set_trace t2 s.
Proof. done. Qed.

Lemma deliver_state wr text s :
  (deliver wr text s).2 = set_trace (trace s ++ shown wr text) s.
Proof. destruct wr; simpl; by rewrite ?set_trace_app_nil. Qed.

Lemma Cmd_Run_state w c s :
  (Cmd_Run w c s).2 = set_trace (trace s ++ effects_of w c) s.
Proof.
  unfold Cmd_Run, effects_of. destruct (Err c); [by rewrite set_trace_app_nil|].
  destruct (child w _ _ _ _); [by rewrite set_trace_app_nil|].
  unfold bind. cbn [fst snd ret]. rewrite !deliver_state.
  unfold emit. cbn [fst snd trace set_trace Verbose heap].
  unfold set_trace. cbn [trace Verbose heap].
  by rewrite <- !app_assoc.
Qed.

Lemma Cmd_Output_state w c s :
  Stdout c = nil_Writer ->
  (Cmd_Output w c s).2 =
  set_trace (trace s ++ effects_of w
    (if match Stderr c with nil_Writer => true | _ => false end
     then with_Stderr Buffer (with_Stdout Buffer c) else with_Stdout Buffer c)) s.
Proof.
  intros Ho. unfold Cmd_Output. rewrite Ho. unfold bind. cbn [fst snd ret].
  by rewrite Cmd_Run_state.
Qed.

Lemma prepare_state w c args s :
  (prepare w c args s).2 =
  set_trace (trace s ++
    if Verbose s
    then [log_executing
            (if sudoer c && sudo c && negb (String.eqb (GOOS w) "windows")
             then "sudo" else program c)
            ((if sudoer c && sudo c && negb (String.eqb (GOOS w) "windows")
              then [program c] else []) ++ args)%list]
    else []) s.
Proof.
  unfold prepare, bind, get_Verbose. cbn [fst snd].
  destruct (Verbose s) eqn:HV; cbn [fst snd ret]; [done|by rewrite set_trace_app_nil].
Qed.

(** The deferred [setOpts] changes neither the switch nor the trace. *)
Lemma defer_setOpts_state {A} (c : command) (body : M A) (s : State) :
  Verbose (defer (setOpts c [sudo_option false]) body s).2 = Verbose (body s).2 /\
  trace (defer (setOpts c [sudo_option false]) body s).2 = trace (body s).2.
Proof.
  unfold defer, bind.
  change ((ret (body s).1 (setOpts c [sudo_option false] (body s).2).2).2)
    with ((setOpts c [sudo_option false] (body s).2).2).
  destruct (setOpts_frame c [sudo_option false] (body s).2) as (HV & HT & _).
  { repeat constructor. apply local_sudo_option. }
  done.
Qed.

(** The state in which each mode leaves the switch and the trace: that of
    the standard-library call on the prepared command. *)
Lemma run_state w c args s :
  let cmd := (prepare w c args s).1 in
  let st := (Cmd_Run w (if Verbose s
                        then with_Stderr os_Stderr (with_Stdout os_Stdout cmd)
                        else cmd) (prepare w c args s).2).2 in
  Verbose (run w c args s).2 = Verbose st /\ trace (run w c args s).2 = trace st.
Proof.
  intros cmd st. unfold run.
  match goal with |- context [defer ?d ?b s] =>
    destruct (defer_setOpts_state c b s) as [HV HT]; rewrite HV, HT; clear HV HT end.
  unfold bind, get_Verbose. cbn [fst snd]. rewrite prepare_Verbose. fold cmd.
  match goal with |- context [Cmd_Run w ?c0 ?s0] =>
    change (Cmd_Run w c0 s0).2 with st; destruct (Cmd_Run w c0 s0).1.1 as [e|] end;
    [destruct (is_ErrNotFound e)|]; done.
Qed.

Lemma runOut_state w c args s :
  let cmd := (prepare w c args s).1 in
  let st := (Cmd_Output w (if Verbose s then with_Stderr os_Stderr cmd else cmd)
               (prepare w c args s).2).2 in
  Verbose (runOut w c args s).2 = Verbose st /\ trace (runOut w c args s).2 = trace st.
Proof.
  intros cmd st. unfold runOut.
  match goal with |- context [defer ?d ?b s] =>
    destruct (defer_setOpts_state c b s) as [HV HT]; rewrite HV, HT; clear HV HT end.
  unfold bind, get_Verbose. cbn [fst snd]. by rewrite prepare_Verbose.
Qed.

Lemma runOutErr_state w c args s :
  let cmd := (prepare w c args s).1 in
  let st := (Cmd_Run w (with_Stderr Buffer (with_Stdout Buffer cmd))
               (prepare w c args s).2).2 in
  Verbose (runOutErr w c args s).2 = Verbose st /\
  trace (runOutErr w c args s).2 = trace st.
Proof.
  intros cmd st. unfold runOutErr.
  match goal with |- context [defer ?d ?b s] =>
    destruct (defer_setOpts_state c b s) as [HV HT]; rewrite HV, HT; clear HV HT end.
  by unfold bind.
Qed.

Lemma prepare_writers w c args s :
  Stdout (prepare w c args s).1 = nil_Writer /\ Stderr (prepare w c args s).1 = nil_Writer.
Proof.
  rewrite prepare_result. split; [apply Stdout_exec_Command | apply Stderr_exec_Command].
Qed.

Lemma prepare_trace w c args s :
  exists logged,
    trace (prepare w c args s).2 = (trace s ++ logged)%list /\
    (Verbose s = false -> logged = []) /\
    Forall (fun e => is_console e = false /\ is_spawn e = false) logged.
Proof.
  rewrite prepare_state. destruct (Verbose s); eexists; (split; [reflexivity|]); split;
    try done; repeat constructor.
Qed.

(** *** What an invocation shows and starts *)

(** X1.  With [Verbose] off, [run] logs nothing and shows nothing of the
    child on the console: its only side effect is the start of the process,
    and there is none when the lookup or the start failed. *)
Theorem X1_run_quiet_trace (w : World) (c : command) (args : list string) (s : State) :
  Verbose s = false ->
  let cmd := (prepare w c args s).1 in
  trace (run w c args s).2 =
  (trace s ++
   match Err cmd with
   | Some _ => []
   | None =>
       match child w (Path cmd) (Args cmd) nil_Writer nil_Writer with
       | StartFailed _ => []
       | Exited _ _ _ => [spawn (Path cmd) (Args cmd)]
       end
   end)%list.
Proof.
  intros HV cmd.
  destruct (run_state w c args s) as [_ ->]. rewrite HV. fold cmd.
  rewrite Cmd_Run_state, prepare_state, HV. cbn [trace set_trace].
  rewrite app_nil_r. f_equal. unfold effects_of.
  destruct (prepare_writers w c args s) as [Ho He]. fold cmd in Ho, He.
  rewrite Ho, He. destruct (Err cmd); [done|].
  by destruct (child w _ _ _ _).
Qed.

Lemma X1_run_quiet_trace_witness :
  trace (run linux_ok vbox ["list"; "vms"] (caller vbox false)).2 =
  [spawn "/usr/bin/VBoxManage" ["VBoxManage"; "list"; "vms"]].
Proof.
  apply (X1_run_quiet_trace linux_ok vbox ["list"; "vms"] (caller vbox false)).
  reflexivity.
Defined.



(** X3.  The capturing modes keep the captured text off the console:
    [runOutErr] shows nothing of the child there, whatever [Verbose] is, and
    [runOut] never shows the child's standard output. *)
Theorem X3_captured_text_not_shown (w : World) (c : command) (args : list string) (s : State) :
  (exists added,
     trace (runOutErr w c args s).2 = (trace s ++ added)%list /\
     Forall (fun e => is_console e = false) added) /\
  (exists added,
     trace (runOut w c args s).2 = (trace s ++ added)%list /\
     Forall (fun e => forall text, e <> console_out text) added).
Proof.
  destruct (prepare_trace w c args s) as (logged & Hlog & _ & Hl).
  destruct (prepare_writers w c args s) as [Ho He].
  split.
  - destruct (runOutErr_state w c args s) as [_ ->].
    rewrite Cmd_Run_state. cbn [trace set_trace]. rewrite Hlog, <- app_assoc.
    eexists. split; [reflexivity|]. apply Forall_app. split.
    + eapply Forall_impl; [exact Hl|]. by intros e [? _].
    + unfold effects_of. cbn [with_Stderr with_Stdout Err Path Args Stdout Stderr].
      destruct (Err _); [constructor|].
      destruct (child w _ _ _ _); repeat constructor.
  - destruct (runOut_state w c args s) as [_ ->].
    rewrite Cmd_Output_state by (destruct (Verbose s); exact Ho).
    cbn [trace set_trace]. rewrite Hlog, <- app_assoc.
    eexists. split; [reflexivity|]. apply Forall_app. split.
    + eapply Forall_impl; [exact Hl|]. intros e [Hc _] text ->. done.
    + unfold effects_of.
      destruct (Verbose s); cbn [with_Stderr with_Stdout Err Path Args Stdout Stderr];
        rewrite ?He; cbn [with_Stderr with_Stdout Err Path Args Stdout Stderr];
        (destruct (Err _); [constructor|]);
        (destruct (child w _ _ _ _); repeat constructor; done).
Qed.

(** X4.  No invocation changes the [Verbose] switch. *)
Theorem X4_invocations_keep_Verbose (w : World) (c : command) (args : list string) (s : State) :
  Verbose (run w c args s).2 = Verbose s /\
  Verbose (runOut w c args s).2 = Verbose s /\
  Verbose (runOutErr w c args s).2 = Verbose s /\
  (forall path_ vsys name,
     Verbose (ImportOVF (ret (command_Command w c)) path_ vsys name s).2 = Verbose s).
Proof.
  destruct (prepare_writers w c args s) as [Ho He].
  assert (forall a st, Verbose (run w c a st).2 = Verbose st) as Hrun.
  { intros a st. destruct (run_state w c a st) as [-> _].
    by rewrite Cmd_Run_state, prepare_state. }
  split_and!.
  - apply Hrun.
  - destruct (runOut_state w c args s) as [-> _].
    rewrite Cmd_Output_state by (destruct (Verbose s); exact Ho).
    by rewrite prepare_state.
  - destruct (runOutErr_state w c args s) as [-> _].
    by rewrite Cmd_Run_state, prepare_state.
  - intros path_ vsys name. apply Hrun.
Qed.

(** *** How the three modes relate *)

(** X5.  For a child whose behaviour does not depend on how its streams
    are connected, the three modes agree: [runOut] returns the standard
    output that [runOutErr] returns, [run] returns the error that
    [runOutErr] returns, and [runOut] fails exactly when [runOutErr] does. *)
Theorem X5_modes_agree (w : World) (c : command) (args : list string) (s : State) :
  let cmd := (prepare w c args s).1 in
  (forall o e o' e',
     child w (Path cmd) (Args cmd) o e = child w (Path cmd) (Args cmd) o' e') ->
  (runOut w c args s).1.1 = (runOutErr w c args s).1.1.1 /\
  (run w c args s).1 = (runOutErr w c args s).1.2 /\
  ((runOut w c args s).1.2 = None <-> (runOutErr w c args s).1.2 = None).
Proof.
  intros cmd Hni.
  destruct (prepare_writers w c args s) as [Ho He]. fold cmd in Ho, He.
  rewrite run_result, runOut_result, runOutErr_result. fold cmd.
  rewrite Cmd_Output_result by (destruct (Verbose s); exact Ho).
  cbn zeta. rewrite !Cmd_Run_result.
  destruct (Verbose s); cbn [with_Stderr with_Stdout Err Path Args Stdout Stderr];
    rewrite ?Ho, ?He; cbn [with_Stderr with_Stdout Err Path Args Stdout Stderr];
    (destruct (Err cmd) as [e0|]; [by destruct e0|]);
    rewrite ?(Hni os_Stdout os_Stderr Buffer Buffer),
            ?(Hni Buffer os_Stderr Buffer Buffer),
            ?(Hni nil_Writer nil_Writer Buffer Buffer);
    (destruct (child w (Path cmd) (Args cmd) Buffer Buffer) as [e1|out err [e1|]]);
    cbn [fst snd kept]; try done; by destruct e1.
Qed.

Lemma X5_modes_agree_witness :
  (runOut linux_exit1 vbox ["list"] (caller vbox true)).1.1
    = (runOutErr linux_exit1 vbox ["list"] (caller vbox true)).1.1.1 /\
  (run linux_exit1 vbox ["list"] (caller vbox true)).1
    = (runOutErr linux_exit1 vbox ["list"] (caller vbox true)).1.2 /\
  ((runOut linux_exit1 vbox ["list"] (caller vbox true)).1.2 = None <->
   (runOutErr linux_exit1 vbox ["list"] (caller vbox true)).1.2 = None).
Proof.
  apply (X5_modes_agree linux_exit1 vbox ["list"] (caller vbox true)).
  intros o e o' e'. reflexivity.
Defined.



(** X7.  When elevation applies, an invocation of a command is the
    invocation of [sudo] with the program put before the arguments: the
    same process is prepared, and each mode returns the same value and has
    the same side effects. *)
Theorem X7_elevated_is_sudo_invocation
    (w : World) (c : command) (args : list string) (s : State) :
  sudoer c = true -> sudo c = true -> String.eqb (GOOS w) "windows" = false ->
  let args' := program c :: args in
  prepare w c args s = prepare w sudo_command args' s /\
  (run w c args s).1 = (run w sudo_command args' s).1 /\
  trace (run w c args s).2 = trace (run w sudo_command args' s).2 /\
  (runOut w c args s).1 = (runOut w sudo_command args' s).1 /\
  trace (runOut w c args s).2 = trace (runOut w sudo_command args' s).2 /\
  (runOutErr w c args s).1 = (runOutErr w sudo_command args' s).1 /\
  trace (runOutErr w c args s).2 = trace (runOutErr w sudo_command args' s).2.
Proof.
  intros Hsr Hs Hos args'.
  assert (prepare w c args s = prepare w sudo_command args' s) as Hp.
  { unfold prepare. rewrite Hsr, Hs, Hos. done. }
  split; [exact Hp|].
  rewrite !run_result, !runOut_result, !runOutErr_result.
  destruct (run_state w c args s) as [_ ->].
  destruct (run_state w sudo_command args' s) as [_ ->].
  destruct (runOut_state w c args s) as [_ ->].
  destruct (runOut_state w sudo_command args' s) as [_ ->].
  destruct (runOutErr_state w c args s) as [_ ->].
  destruct (runOutErr_state w sudo_command args' s) as [_ ->].
  cbn zeta. by rewrite Hp.
Qed.

Lemma X7_elevated_is_sudo_invocation_witness :
  (run linux_exit1 vbox_elevated ["list"] (caller vbox_elevated true)).1
  = (run linux_exit1 sudo_command ["VBoxManage"; "list"] (caller vbox_elevated true)).1.
Proof.
  apply (X7_elevated_is_sudo_invocation linux_exit1 vbox_elevated ["list"]
           (caller vbox_elevated true)); reflexivity.
Defined.

(** *** Success, failure before the start, and the permission probe *)

(** X8.  [run] returns nil exactly when the executable was found, the
    process started and its wait reported no error; so does [runOutErr]. *)
Theorem X8_nil_iff_started_and_exited_clean
    (w : World) (c : command) (args : list string) (s : State) :
  let cmd := (prepare w c args s).1 in
  let wo := if Verbose s then os_Stdout else nil_Writer in
  let we := if Verbose s then os_Stderr else nil_Writer in
  ((run w c args s).1 = None <->
   Err cmd = None /\
   exists out err, child w (Path cmd) (Args cmd) wo we = Exited out err None) /\
  ((runOutErr w c args s).1.2 = None <->
   Err cmd = None /\
   exists out err, child w (Path cmd) (Args cmd) Buffer Buffer = Exited out err None).
Proof.
  intros cmd wo we.
  destruct (prepare_writers w c args s) as [Ho He]. fold cmd in Ho, He.
  rewrite run_result, runOutErr_result. fold cmd. cbn zeta.
  rewrite !Cmd_Run_result. split.
  - subst wo we.
    destruct (Verbose s); cbn [with_Stderr with_Stdout Err Path Args Stdout Stderr];
      rewrite ?Ho, ?He;
      (destruct (Err cmd) as [e0|]; [by split; [|intros [? _]]|]);
      (destruct (child w _ _ _ _) as [e1|out err [e1|]]; cbn [fst];
       (split; [try done; by eauto | by intros [_ (? & ? & ?)]])).
  - cbn [with_Stderr with_Stdout Err Path Args Stdout Stderr].
    destruct (Err cmd) as [e0|]; [by split; [|intros [? _]]|].
    destruct (child w _ _ _ _) as [e1|out err [e1|]]; cbn [fst snd];
      (split; [try done; by eauto | by intros [_ (? & ? & ?)]]).
Qed.

(** X9.  When the lookup of the executable failed, every mode returns an
    error and empty text, and starts no process: the trace is the one
    [prepare] left, which holds at most the log line. *)
Theorem X9_lookup_failure_starts_nothing
    (w : World) (c : command) (args : list string) (s : State) (e : error) :
  Err (prepare w c args s).1 = Some e ->
  ((run w c args s).1 <> None /\
   trace (run w c args s).2 = trace (prepare w c args s).2) /\
  ((runOut w c args s).1.1 = EmptyString /\ (runOut w c args s).1.2 <> None /\
   trace (runOut w c args s).2 = trace (prepare w c args s).2) /\
  ((runOutErr w c args s).1.1 = (EmptyString, EmptyString) /\
   (runOutErr w c args s).1.2 <> None /\
   trace (runOutErr w c args s).2 = trace (prepare w c args s).2) /\
  Forall (fun ev => is_spawn ev = false)
    (drop (length (trace s)) (trace (prepare w c args s).2)).
Proof.
  intros HErr.
  destruct (prepare_writers w c args s) as [Ho He].
  destruct (run_state w c args s) as [_ ->].
  destruct (runOut_state w c args s) as [_ ->].
  destruct (runOutErr_state w c args s) as [_ ->].
  rewrite run_result, runOut_result, runOutErr_result.
  rewrite Cmd_Output_result, Cmd_Output_state by (destruct (Verbose s); exact Ho).
  cbn zeta. rewrite !Cmd_Run_result, !Cmd_Run_state.
  unfold effects_of.
  split_and!.
  - destruct (Verbose s); cbn [with_Stderr with_Stdout Err]; by rewrite HErr.
  - destruct (Verbose s); cbn [with_Stderr with_Stdout Err trace set_trace];
      rewrite HErr; apply app_nil_r.
  - destruct (Verbose s); cbn [with_Stderr with_Stdout Err Stderr]; rewrite ?He;
      cbn [with_Stderr with_Stdout Err]; by rewrite HErr.
  - destruct (Verbose s); cbn [with_Stderr with_Stdout Err Stderr]; rewrite ?He;
      cbn [with_Stderr with_Stdout Err]; rewrite HErr; by destruct e.
  - destruct (Verbose s); cbn [with_Stderr with_Stdout Err Stderr trace set_trace];
      rewrite ?He; cbn [with_Stderr with_Stdout Err]; rewrite HErr; apply app_nil_r.
  - cbn [with_Stderr with_Stdout Err]. by rewrite HErr.
  - cbn [with_Stderr with_Stdout Err]. by rewrite HErr.
  - cbn [with_Stderr with_Stdout Err trace set_trace]. rewrite HErr. apply app_nil_r.
  - destruct (prepare_trace w c args s) as (logged & -> & _ & Hl).
    rewrite drop_app_length. eapply Forall_impl; [exact Hl|]. by intros ev [_ ?].
Qed.

Lemma X9_lookup_failure_starts_nothing_witness :
  (run linux_ok absent_tool ["list"] (caller absent_tool true)).1 <> None /\
  trace (run linux_ok absent_tool ["list"] (caller absent_tool true)).2
    = trace (prepare linux_ok absent_tool ["list"] (caller absent_tool true)).2.
Proof.
  apply (X9_lookup_failure_starts_nothing linux_ok absent_tool ["list"]
           (caller absent_tool true)
           (exec_Error 9 "doesnotexist_tool" exec_ErrNotFound)).
  reflexivity.
Defined.

Lemma Itoa_not_sudo (i : Z) : Itoa i <> "sudo".
Proof.
  intros H. pose proof (Itoa_decimal i) as Hd. rewrite H in Hd. discriminate Hd.
Qed.

(** X10.  When the group IDs of the user are numbers written in decimal,
    [isSudoer] answers false without error on every platform: it compares
    each ID with the group name [sudo]. *)
Theorem X10_numeric_group_ids_never_sudoer (w : World) (u : User) (gids : list Z) :
  user_Current w = inl u ->
  GroupIds w u = inl (map Itoa gids) ->
  isSudoer w = (false, None).
Proof.
  intros Hu Hg. unfold isSudoer. rewrite Hu, Hg.
  destruct (String.eqb _ _); [|done]. f_equal. clear Hg.
  induction gids as [|g gids IH]; [done|].
  simpl. destruct (String.eqb_spec (Itoa g) "sudo") as [Heq|_]; [|exact IH].
  by apply Itoa_not_sudo in Heq.
Qed.

Lemma X10_numeric_group_ids_never_sudoer_witness :
  isSudoer {| GOOS := "linux"; filepath_Base := fun name => name;
              LookPath := lookup;
              child := fun _ _ _ _ => Exited "ok" EmptyString None;
              user_Current := inl me;
              GroupIds := fun _ => inl (map Itoa [1000; 27]) |} = (false, None).
Proof.
  apply (X10_numeric_group_ids_never_sudoer _ me [1000; 27]); reflexivity.
Defined.

(** *** import.go *)



(** X12.  End to end, without elevation and with [Verbose] off: when the
    program is found on the search path and the child exits 0, [ImportOVF]
    returns nil and its one side effect is the start of the found executable
    with the program name, [import], the path, [--vsys], the decimal
    [vsys], [--vmname] and the name as its argument vector. *)
Theorem X12_ImportOVF_end_to_end
    (w : World) (c : command) (s : State)
    (path_ : string) (vsys : Z) (name lp out err : string) :
  let argv := [program c; "import"; path_; "--vsys"; Itoa vsys; "--vmname"; name] in
  Verbose s = false ->
  sudo c = false ->
  filepath_Base w (program c) = program c ->
  LookPath w (program c) = inl lp ->
  child w lp argv nil_Writer nil_Writer = Exited out err None ->
  (ImportOVF (ret (command_Command w c)) path_ vsys name s).1 = None /\
  trace (ImportOVF (ret (command_Command w c)) path_ vsys name s).2 =
    (trace s ++ [spawn lp argv])%list.
Proof.
  intros argv HV Hs Hbase Hlp Hchild.
  change (ImportOVF (ret (command_Command w c)) path_ vsys name s)
    with (run w c ["import"; path_; "--vsys"; Itoa vsys; "--vmname"; name] s).
  set (args := ["import"; path_; "--vsys"; Itoa vsys; "--vmname"; name]).
  assert ((prepare w c args s).1 =
          {| Path := lp; Args := argv; Err := None;
             Stdout := nil_Writer; Stderr := nil_Writer |}) as Hcmd.
  { rewrite prepare_result, Hs, andb_false_r. cbn [andb app].
    unfold exec_Command. apply String.eqb_eq in Hbase. by rewrite Hbase, Hlp. }
  split.
  - rewrite run_result, HV, Hcmd, Cmd_Run_result. cbn [Err Path Args Stdout Stderr].
    by rewrite Hchild.
  - destruct (run_state w c args s) as [_ ->]. rewrite HV, Hcmd.
    rewrite Cmd_Run_state, prepare_state, HV. cbn [trace set_trace].
    rewrite app_nil_r. unfold effects_of. cbn [Err Path Args Stdout Stderr].
    by rewrite Hchild.
Qed.

Lemma X12_ImportOVF_end_to_end_witness :
  (ImportOVF (ret (command_Command linux_ok vbox)) "/tmp/a.ova" 0 "vm1"
     (caller vbox false)).1 = None /\
  trace (ImportOVF (ret (command_Command linux_ok vbox)) "/tmp/a.ova" 0 "vm1"
           (caller vbox false)).2 =
    (trace (caller vbox false) ++
     [spawn "/usr/bin/VBoxManage"
        [program vbox; "import"; "/tmp/a.ova"; "--vsys"; Itoa 0; "--vmname"; "vm1"]])%list.
Proof.
  apply (X12_ImportOVF_end_to_end linux_ok vbox (caller vbox false)
           "/tmp/a.ova" 0 "vm1" "/usr/bin/VBoxManage" "ok" EmptyString);
    reflexivity.
Defined.
